(** * A shallow embedding of lib/css-responder.js (connect-fonts)

    The module keeps three pieces of process-wide mutable state: the
    configuration, the CSS cache [cssCache] (a JS object used as a map
    from cache key to the generated CSS object) and the memoised
    temporary directory [cssTmpPath].  The external collaborators
    (node-font-face-generator, [tmp.dir], [fs.writeFile]) are oracles,
    taken as Section variables.  Callback chains are unrolled into
    explicit state passing. *)

From Stdlib Require Import String Ascii ZArith List.
From Stdlib Require Import DecimalString.
From stdpp Require Import base gmap strings.

Import ListNotations.
Open Scope string_scope.

(** ** Strings as JavaScript builds them *)

Definition slash : ascii := "/".
Definition comma : ascii := ",".
Definition dash : ascii := "-".

(** Membership of a character in a string. *)
Fixpoint has_char (c : ascii) (s : string) : bool :=
  match s with
  | EmptyString => false
  | String a r => if Ascii.eqb a c then true else has_char c r
  end.

(** Number of occurrences of a character in a string. *)
Fixpoint count_char (c : ascii) (s : string) : nat :=
  match s with
  | EmptyString => 0
  | String a r => (if Ascii.eqb a c then 1 else 0) + count_char c r
  end.

(** [Array.prototype.toString] on an array of strings:
    the elements joined with [","]. *)
Definition array_to_string (xs : list string) : string :=
  String.concat "," xs.

(** [getCacheKey]: [ua + '-' + locale + '-' + fonts], the array [fonts]
    being converted with its [toString]. *)
Definition getCacheKey (ua locale : string) (fonts : list string) : string :=
  ua ++ "-" ++ locale ++ "-" ++ array_to_string fonts.

(** The class [\w] of JavaScript regular expressions: [A-Za-z0-9_]. *)
Definition is_word_char (c : ascii) : bool :=
  let n := nat_of_ascii c in
  (((48 <=? n) && (n <=? 57)) || ((65 <=? n) && (n <=? 90)) ||
   ((97 <=? n) && (n <=? 122)) || (n =? 95))%nat.

(** [s.replace(/\W/g, '-')]. *)
Fixpoint replace_non_word (s : string) : string :=
  match s with
  | EmptyString => EmptyString
  | String a r =>
      String (if is_word_char a then a else "-"%char) (replace_non_word r)
  end.

(** [path.join(dir, name)] for a normalised absolute directory without a
    trailing slash (as [tmp.dir] returns) and a name with no slash and
    not ["."] or [".."] (as the sanitised names below are). *)
Definition path_join (dir name : string) : string :=
  dir ++ "/" ++ name.

(** The file name used in [get_css]:
    [cacheKey.replace(/\W/g, '-') + ".css"]. *)
Definition css_file_name (cacheKey : string) : string :=
  replace_non_word cacheKey ++ ".css".

(** [fonts.split(',')]. *)
Fixpoint split_comma (s : string) : list string :=
  match s with
  | EmptyString => [""]
  | String a r =>
      let rest := split_comma r in
      if Ascii.eqb a comma then "" :: rest
      else match rest with
           | h :: t => String a h :: t
           | [] => [String a ""]
           end
  end.

(** ** The URL regular expression

    [/(?:\/([^\/]+))?\/([^\/]+)\/fonts\.css$/.exec(url)].

    [take_seg s] splits off the longest prefix of [s] without a slash.
    Each [[^\/]+] of the pattern is followed by a slash, so it matches
    exactly that longest prefix: backtracking to a shorter one would
    leave a non-slash character where the slash is required. *)
Fixpoint take_seg (s : string) : string * string :=
  match s with
  | EmptyString => (EmptyString, EmptyString)
  | String a r =>
      if Ascii.eqb a slash then (EmptyString, s)
      else let (p, q) := take_seg r in (String a p, q)
  end.

Definition is_empty (s : string) : bool :=
  match s with EmptyString => true | _ => false end.

(** A successful match: [match[1]] ([None] when the optional group did
    not participate, i.e. [undefined]) and [match[2]]. *)
Definition url_match : Type := option string * string.

(** The alternative without the optional group, at a position where the
    input starts with a slash: [\/([^\/]+)\/fonts\.css$]. *)
Definition match_no_locale (r : string) : option url_match :=
  let (s2, r2) := take_seg r in
  if negb (is_empty s2) && String.eqb r2 "/fonts.css"
  then Some (None, s2) else None.

(** The pattern anchored at the start of [s]: the greedy optional group
    is tried first, then the alternative without it. *)
Definition match_at (s : string) : option url_match :=
  match s with
  | String a r =>
      if Ascii.eqb a slash then
        let (s1, r1) := take_seg r in
        let with_locale :=
          if is_empty s1 then None else
          match r1 with
          | String b r2 =>
              if Ascii.eqb b slash then
                let (s2, r3) := take_seg r2 in
                if negb (is_empty s2) && String.eqb r3 "/fonts.css"
                then Some (Some s1, s2) else None
              else None
          | EmptyString => None
          end in
        match with_locale with
        | Some m => Some m
        | None => match_no_locale r
        end
      else None
  | EmptyString => None
  end.

(** [RegExp.prototype.exec] without the [g] flag: the leftmost start
    position at which the pattern matches. *)
Fixpoint regex_exec (s : string) : option url_match :=
  match match_at s with
  | Some m => Some m
  | None =>
      match s with
      | EmptyString => None
      | String _ r => regex_exec r
      end
  end.

(** ** JavaScript values used below *)

(** The errors that reach the callbacks: the generator's
    [InvalidFontError], any other generator failure, an I/O failure of
    [tmp.dir] or [fs.writeFile], and the [TypeError] that
    [path.join(undefined, ...)] throws. *)
Inductive js_error :=
| InvalidFontError
| GenerationError
| IOError
| TypeError.

Definition js_error_eqb (a b : js_error) : bool :=
  match a, b with
  | InvalidFontError, InvalidFontError | GenerationError, GenerationError
  | IOError, IOError | TypeError, TypeError => true
  | _, _ => false
  end.

(** Truthiness of a string-valued property that may be [undefined]. *)
Definition truthy (o : option string) : bool :=
  match o with Some s => negb (is_empty s) | None => false end.

(** The CSS object built by [generate_css] ([{css: cssStr}]) to which
    [get_css] adds [cssPath] before caching it. *)
Record css_obj := mk_css_obj { css : string; cssPath : string }.

(** The module state.  [gen_calls] records the calls made to the
    generator, so that a cache hit can be told from a regeneration. *)
Record world := mk_world {
  cssCache : gmap string css_obj;
  cssTmpPath : option string;
  disk : gmap string string;
  gen_calls : list (string * string * list string)
}.

Definition set_cssCache (c : gmap string css_obj) (w : world) : world :=
  mk_world c (cssTmpPath w) (disk w) (gen_calls w).
Definition set_cssTmpPath (p : option string) (w : world) : world :=
  mk_world (cssCache w) p (disk w) (gen_calls w).
Definition set_disk (d : gmap string string) (w : world) : world :=
  mk_world (cssCache w) (cssTmpPath w) d (gen_calls w).
Definition log_gen_call (c : string * string * list string) (w : world) : world :=
  mk_world (cssCache w) (cssTmpPath w) (disk w) (gen_calls w ++ [c]).

(** What [get_css] does with its [done] callback: [done(null, obj)],
    [done(err)], or an exception thrown inside the callback chain before
    [done] is reached. *)
Inductive gc_result :=
| GcOk (o : css_obj)
| GcErr (e : js_error)
| GcRaise (e : js_error).

Section Collaborators.

(** [css_generator.get_font_css({ua, locale, fonts}, cb)]: the error or
    the CSS string it passes to its callback. *)
Variable get_font_css : string -> string -> list string -> js_error + string.
(** [tmp.dir(cb)]: the error or the fresh directory path. *)
Variable tmp_dir : js_error + string.
(** [fs.writeFile(path, data, 'utf8', cb)]: the error, if any. *)
Variable write_file : string -> string -> option js_error.

(** [exports.generate_css]. *)
Definition generate_css (w : world) (ua locale : string) (fonts : list string)
  : (js_error + string) * world :=
  let w1 := log_gen_call (ua, locale, fonts) w in
  match get_font_css ua locale fonts with
  | inl err => (inl err, w1)
  | inr cssStr => (inr cssStr, w1)
  end.

(** [prepareTmpPath]: the memoised directory, else a fresh one from
    [tmp.dir], memoised on success. *)
Definition prepareTmpPath (w : world) : (js_error + string) * world :=
  if truthy (cssTmpPath w) then
    match cssTmpPath w with
    | Some p => (inr p, w)
    | None => (inl TypeError, w)
    end
  else
    match tmp_dir with
    | inl err => (inl err, w)
    | inr tmpPath => (inr tmpPath, set_cssTmpPath (Some tmpPath) w)
    end.

(** [exports.get_css].  The callback of [prepareTmpPath] ignores its
    error: with [cssTmpPath] undefined, [path.join] throws. *)
Definition get_css (w : world) (ua locale : string) (fonts : list string)
  : gc_result * world :=
  let cacheKey := getCacheKey ua locale fonts in
  match cssCache w !! cacheKey with
  | Some cacheHit => (GcOk cacheHit, w)
  | None =>
      let (r, w1) := generate_css w ua locale fonts in
      match r with
      | inl err => (GcErr err, w1)
      | inr cssStr =>
          let (t, w2) := prepareTmpPath w1 in
          match t with
          | inl _ => (GcRaise TypeError, w2)
          | inr tmpPath =>
              let cssPath := path_join tmpPath (css_file_name cacheKey) in
              match write_file cssPath cssStr with
              | Some err => (GcErr err, w2)
              | None =>
                  let cssObj := mk_css_obj cssStr cssPath in
                  (GcOk cssObj,
                   set_cssCache (<[cacheKey := cssObj]> (cssCache w2))
                     (set_disk (<[cssPath := cssStr]> (disk w2)) w2))
              end
          end
      end
  end.

(** ** The responder *)

(** The parts of the request the responder reads. *)
Record request := mk_request {
  method : string;
  url : string;
  ua_header : option string   (** [req.headers['user-agent']] *)
}.

(** The configuration set by [setup]: [config.ua], [maxAge] and
    [compress]. *)
Record config := mk_config {
  cfg_ua : option string;
  maxAge : Z;
  compress : bool
}.

(** What the responder does: call [next()], throw, or pipe the cached
    file to the response (through [oppressor] when compressing). *)
Inductive action :=
| CallNext
| Throw (e : js_error)
| PipeFile (path : string) (compressed : bool).

(** The callback the responder passes to [get_css]. *)
Definition css_callback (cfg : config) (r : gc_result) (w : world)
  : list action * world :=
  match r with
  | GcErr e =>
      if js_error_eqb e InvalidFontError then ([CallNext], w)
      else ([Throw e], w)
  | GcRaise e => ([Throw e], w)
  | GcOk cssObj => ([PipeFile (cssPath cssObj) (compress cfg)], w)
  end.

(** [config.ua || req.headers['user-agent']]. *)
Definition resolve_ua (cfg : config) (req : request) : option string :=
  if truthy (cfg_ua cfg) then cfg_ua cfg else ua_header req.

(** [locale = match[1]; if (!locale) locale = "default";]. *)
Definition locale_of (m1 : option string) : string :=
  if truthy m1 then match m1 with Some l => l | None => "default" end
  else "default".

(** [exports.font_css_responder]. *)
Definition font_css_responder (cfg : config) (w : world) (req : request)
  : list action * world :=
  if String.eqb (method req) "GET" then
    match regex_exec (url req) with
    | Some (m1, m2) =>
        let ua := resolve_ua cfg req in
        let locale := locale_of m1 in
        let fonts := split_comma m2 in
        match ua with
        | Some u =>
            if truthy ua && negb (is_empty locale) then
              let (r, w') := get_css w u locale fonts in css_callback cfg r w'
            else ([CallNext], w)
        | None => ([CallNext], w)
        end
    | None => ([CallNext], w)
    end
  else ([CallNext], w).

End Collaborators.

(** ** Cache-control headers *)

Local Open Scope Z_scope.

(** Decimal rendering of an integer, as [String(n)] gives it. *)
Definition dec_of_Z (z : Z) : string := NilZero.string_of_int (Z.to_int z).

Definition digit (d : Z) : string := dec_of_Z d.

(** The fractional digits of [r / 1000] for [0 < r < 1000], trailing
    zeros dropped. *)
Definition frac3 (r : Z) : string :=
  let d1 := r / 100 in
  let d2 := (r / 10) mod 10 in
  let d3 := r mod 10 in
  digit d1 ++
  (if (d2 =? 0) && (d3 =? 0) then ""
   else digit d2 ++ (if d3 =? 0 then "" else digit d3)).

(** [String(maxAge / 1000)] for an integer [maxAge] with
    [|maxAge| < 10^15], the domain on which this definition is a faithful
    model.  JavaScript's [/] rounds the real quotient to the nearest
    double, and [Number.prototype.toString] prints the shortest decimal
    that reads back as that double (in positional notation below [10^21]).
    For [|maxAge| < 10^15] the exact quotient [maxAge/1000] has at most 15
    significant digits; distinct decimals of at most 15 significant digits
    round to distinct doubles, so the shortest decimal of the double is the
    exact quotient with its trailing zeros dropped, which is what is built
    here.  Beyond that bound JavaScript may print a different decimal (for
    [9007199254740991] it prints [9007199254740.99]) or exponent notation,
    and this definition does not follow it; every statement about the
    printed value below assumes the bound. *)
Definition js_div1000_to_string (m : Z) : string :=
  let a := Z.abs m in
  let body := dec_of_Z (a / 1000) ++
              (if a mod 1000 =? 0 then "" else "." ++ frac3 (a mod 1000)) in
  if m <? 0 then "-" ++ body else body.

(** [setCacheControlHeaders(res)], run on the response's ['header']
    event; [now] is [new Date().toUTCString()].  The response headers are
    a map keyed by lower-cased name, as Node's [getHeader]/[setHeader]
    handle them. *)
Definition setCacheControlHeaders (maxAge : Z) (now : string) (h : gmap string string)
  : gmap string string :=
  if negb (Z.eqb maxAge 0) then
    let h1 := if truthy (h !! "date") then h else <["date" := now]> h in
    if truthy (h1 !! "cache-control") then h1
    else <["cache-control" := "public, max-age=" ++ js_div1000_to_string maxAge]> h1
  else h.

Local Close Scope Z_scope.

(** ** Concrete collaborators used to evaluate the model *)

(** A generator that knows the fonts [Arial] and [Roboto] only. *)
Definition demo_gen (ua locale : string) (fonts : list string)
  : js_error + string :=
  if forallb (fun f => String.eqb f "Arial" || String.eqb f "Roboto") fonts
  then inr ("/* " ++ ua ++ " " ++ locale ++ " */")
  else inl InvalidFontError.

Definition demo_tmp_dir : js_error + string := inr "/tmp/tmp-1234".

Definition demo_write_ok (p data : string) : option js_error := None.

Definition demo_write_fail (p data : string) : option js_error := Some IOError.

Definition empty_world : world := mk_world ∅ None ∅ [].

(** A generator that fails for every request. *)
Definition demo_gen_broken (ua locale : string) (fonts : list string)
  : js_error + string := inl GenerationError.

Definition demo_config : config := mk_config None 0 false.

Definition demo_ua : string := "Mozilla/5.0 (X11; Linux x86_64)".

Definition get_request (u : string) (ua : option string) : request :=
  mk_request "GET" u ua.

(** The state after one request for [Arial] has been cached. *)
Definition cached_world : world :=
  snd (get_css demo_gen demo_tmp_dir demo_write_ok empty_world
         demo_ua "en" ["Arial"]).

(** A state whose temporary directory is already memoised. *)
Definition world_with_tmp : world := mk_world ∅ (Some "/tmp/tmp-1234") ∅ [].

Definition demo_tmp_dir_fail : js_error + string := inl IOError.

(** * Properties of [get_css] *)

(** ** [setup] *)

Section SetupModel.

(** The font table and the locale map are handed to the generator
    untouched; their contents are opaque to this module. *)
Variable font_table locale_map : Type.

(** The [options] object of [setup]: absent properties are [None]. *)
Record setup_options := mk_setup_options {
  opt_fonts : option font_table;
  opt_locale_to_url_keys : option locale_map;
  opt_maxage : option Z;
  opt_compress : option bool;
  opt_ua : option string
}.

Inductive setup_error := MissingRequiredOptionError (name : string).

(** Modelled from the spec: [util.checkRequired(options, name)] of
    lib/util.js, which is not part of the sources.  The spec says it fails
    with a [MissingRequiredOptionError] when the field is absent. *)
Definition checkRequired {A} (v : option A) (name : string)
  : option setup_error :=
  match v with
  | Some _ => None
  | None => Some (MissingRequiredOptionError name)
  end.

(** The module-level variables [config], [maxAge], [compress], the state
    read by [get_css], and the options last passed to
    [css_generator.setup]. *)
Record module_state := mk_module_state {
  ms_config : option config;
  ms_world : world;
  ms_generator_setup : option (font_table * locale_map)
}.

(** [options.maxage || 0]. *)
Definition maxage_or_default (m : option Z) : Z :=
  match m with Some n => n | None => 0%Z end.

(** [options.compress || false]. *)
Definition compress_or_default (c : option bool) : bool :=
  match c with Some b => b | None => false end.

(** [exports.setup]: both checks run before any assignment, so a thrown
    error leaves the module state as it was.  [cssTmpPath] is not
    reset. *)
Definition setup (options : setup_options) (s : module_state)
  : option setup_error * module_state :=
  match checkRequired (opt_fonts options) "fonts" with
  | Some err => (Some err, s)
  | None =>
  match checkRequired (opt_locale_to_url_keys options) "locale_to_url_keys" with
  | Some err => (Some err, s)
  | None =>
      match opt_fonts options, opt_locale_to_url_keys options with
      | Some fonts, Some l2u =>
          (None,
           mk_module_state
             (Some (mk_config (opt_ua options)
                      (maxage_or_default (opt_maxage options))
                      (compress_or_default (opt_compress options))))
             (set_cssCache ∅ (ms_world s))
             (Some (fonts, l2u)))
      | _, _ => (None, s)   (* unreachable: both checks passed *)
      end
  end
  end.

End SetupModel.

Arguments mk_setup_options {font_table locale_map}.
Arguments mk_module_state {font_table locale_map}.
Arguments setup {font_table locale_map}.
Arguments opt_fonts {font_table locale_map}.
Arguments opt_locale_to_url_keys {font_table locale_map}.
Arguments opt_maxage {font_table locale_map}.
Arguments opt_compress {font_table locale_map}.
Arguments opt_ua {font_table locale_map}.
Arguments ms_config {font_table locale_map}.
Arguments ms_world {font_table locale_map}.
Arguments ms_generator_setup {font_table locale_map}.

(** [setup] options with both required fields (their contents do not
    matter here), and the state before any [setup]. *)
Definition demo_options : setup_options unit unit :=
  mk_setup_options (Some tt) (Some tt) None None None.

Definition initial_state : module_state unit unit :=
  mk_module_state None empty_world None.


Section GetCss.

Variable gen : string -> string -> list string -> js_error + string.
Variable td : js_error + string.
Variable wr : string -> string -> option js_error.

Ltac unfold_get_css :=
  unfold get_css, generate_css, prepareTmpPath, log_gen_call,
    set_cssCache, set_cssTmpPath, set_disk in *;
  cbn [cssCache cssTmpPath disk gen_calls] in *.

Ltac case_wr :=
  match goal with |- context [wr ?a ?b] => destruct (wr a b) eqn:? end.

(** A successful [get_css] leaves its object in the cache under the key. *)
Lemma get_css_ok_cached (w w1 : world) ua locale fonts o :
  get_css gen td wr w ua locale fonts = (GcOk o, w1) ->
  cssCache w1 !! getCacheKey ua locale fonts = Some o.
Proof.
  unfold_get_css.
  destruct (cssCache w !! getCacheKey ua locale fonts) as [hit|] eqn:Hc.
  - intros H; injection H as <- <-; exact Hc.
  - destruct (gen ua locale fonts) as [err|cssStr]; [discriminate|].
    destruct (cssTmpPath w) as [p|] eqn:Hp; cbn [cssTmpPath truthy].
    + destruct (negb (is_empty p)).
      * case_wr; [discriminate|].
        intros H; injection H as <- <-; cbn. apply lookup_insert_eq.
      * destruct td as [err|tmpPath]; [discriminate|].
        case_wr; [discriminate|].
        intros H; injection H as <- <-; cbn. apply lookup_insert_eq.
    + destruct td as [err|tmpPath]; [discriminate|].
      case_wr; [discriminate|].
      intros H; injection H as <- <-; cbn. apply lookup_insert_eq.
Qed.

(** On a cache hit [get_css] returns the cached object and changes
    nothing, so the generator is not called. *)
Lemma get_css_hit (w : world) ua locale fonts o :
  cssCache w !! getCacheKey ua locale fonts = Some o ->
  get_css gen td wr w ua locale fonts = (GcOk o, w).
Proof. intros H. unfold_get_css. rewrite H. reflexivity. Qed.

(** [prepareTmpPath] reads only [cssTmpPath]. *)
Lemma prepareTmpPath_log (w : world) c :
  fst (prepareTmpPath td (log_gen_call c w)) = fst (prepareTmpPath td w).
Proof.
  unfold prepareTmpPath, log_gen_call; cbn [cssTmpPath].
  destruct (truthy (cssTmpPath w)); [destruct (cssTmpPath w)|destruct td];
    reflexivity.
Qed.

(** C1: calling [get_css] a second time with the same arguments, after a
    first call that produced an object, yields that same object (hence the
    same [cssPath]) and leaves the whole state untouched, its log of
    generator calls included: the generator is not called again. *)
Theorem get_css_twice_same_entry (w w1 : world) ua locale fonts o :
  get_css gen td wr w ua locale fonts = (GcOk o, w1) ->
  get_css gen td wr w1 ua locale fonts = (GcOk o, w1).
Proof.
  intros H. apply get_css_hit. exact (get_css_ok_cached w w1 ua locale fonts o H).
Qed.

(** C7: a failing [get_css] leaves the cache as it was; on a cache miss
    an error of the generator, or of the file write, is passed to the
    callback unchanged. *)
Theorem get_css_failure_not_cached (w : world) ua locale fonts :
  (forall e w1, get_css gen td wr w ua locale fonts = (GcErr e, w1) ->
                cssCache w1 = cssCache w)
  /\ (cssCache w !! getCacheKey ua locale fonts = None ->
      forall e, gen ua locale fonts = inl e ->
      fst (get_css gen td wr w ua locale fonts) = GcErr e)
  /\ (cssCache w !! getCacheKey ua locale fonts = None ->
      forall cssStr tmpPath e,
      gen ua locale fonts = inr cssStr ->
      fst (prepareTmpPath td w) = inr tmpPath ->
      wr (path_join tmpPath (css_file_name (getCacheKey ua locale fonts)))
         cssStr = Some e ->
      fst (get_css gen td wr w ua locale fonts) = GcErr e).
Proof.
  split; [|split].
  - intros e w1. unfold_get_css.
    destruct (cssCache w !! getCacheKey ua locale fonts); [discriminate|].
    destruct (gen ua locale fonts) as [err|cssStr].
    + intros H; injection H as _ <-; reflexivity.
    + destruct (cssTmpPath w) as [p|]; cbn [cssTmpPath truthy].
      * destruct (negb (is_empty p)).
        -- case_wr; [|discriminate].
           intros H; injection H as _ <-; reflexivity.
        -- destruct td as [err|tmpPath]; [discriminate|].
           case_wr; [|discriminate].
           intros H; injection H as _ <-; reflexivity.
      * destruct td as [err|tmpPath]; [discriminate|].
        case_wr; [|discriminate].
        intros H; injection H as _ <-; reflexivity.
  - intros Hmiss e He. unfold get_css, generate_css. rewrite Hmiss, He.
    reflexivity.
  - intros Hmiss cssStr tmpPath e Hg Ht Hw.
    rewrite <- (prepareTmpPath_log w (ua, locale, fonts)) in Ht.
    unfold get_css, generate_css. rewrite Hmiss, Hg.
    destruct (prepareTmpPath td _) as [t w2]. cbn in Ht. subst t.
    rewrite Hw. reflexivity.
Qed.

Ltac close_file_goal :=
  repeat split;
  first [ assumption | apply lookup_insert_eq
        | intros ?; first [reflexivity | discriminate] ].

(** C6 (as the code does it): a [get_css] miss that succeeds writes the
    CSS to [<tmp>/<key with every non-word character replaced by '-'>.css],
    in the temporary directory memoised in the state (the one already
    memoised, if any), and caches that path. *)
Theorem get_css_file_name (w w1 : world) ua locale fonts o :
  cssCache w !! getCacheKey ua locale fonts = None ->
  get_css gen td wr w ua locale fonts = (GcOk o, w1) ->
  exists tmpPath,
    cssTmpPath w1 = Some tmpPath
    /\ (truthy (cssTmpPath w) = true -> cssTmpPath w = Some tmpPath)
    /\ cssPath o = path_join tmpPath
                     (replace_non_word (getCacheKey ua locale fonts) ++ ".css")
    /\ disk w1 !! cssPath o = Some (css o)
    /\ cssCache w1 !! getCacheKey ua locale fonts = Some o.
Proof.
  intros Hmiss H.
  pose proof (get_css_ok_cached w w1 ua locale fonts o H) as Hc.
  revert H Hc. unfold_get_css. rewrite Hmiss.
  destruct (gen ua locale fonts) as [err|cssStr]; [discriminate|].
  destruct (cssTmpPath w) as [p|] eqn:Hp; cbn [cssTmpPath truthy].
  - destruct (negb (is_empty p)) eqn:Hne.
    + case_wr; [discriminate|].
      intros H; injection H as <- <-; cbn; intros Hc.
      exists p. close_file_goal.
    + destruct td as [err|tmpPath]; [discriminate|].
      case_wr; [discriminate|].
      intros H; injection H as <- <-; cbn; intros Hc.
      exists tmpPath. close_file_goal.
  - destruct td as [err|tmpPath]; [discriminate|].
    case_wr; [discriminate|].
    intros H; injection H as <- <-; cbn; intros Hc.
    exists tmpPath. close_file_goal.
Qed.

End GetCss.

(** A first [get_css] of [("Mozilla/5.0", "en", ["Arial"])] from the
    initial state. *)
Lemma get_css_twice_same_entry_witness :
  exists o w1,
    get_css demo_gen demo_tmp_dir demo_write_ok empty_world
      "Mozilla/5.0" "en" ["Arial"] = (GcOk o, w1)
    /\ get_css demo_gen demo_tmp_dir demo_write_ok w1
         "Mozilla/5.0" "en" ["Arial"] = (GcOk o, w1).
Proof.
  do 2 eexists. split.
  - cbv. reflexivity.
  - apply (get_css_twice_same_entry demo_gen demo_tmp_dir demo_write_ok
             empty_world).
    vm_compute. reflexivity.
Defined.

(** A generator error and a write error, from the initial state. *)
Lemma get_css_failure_not_cached_witness :
  fst (get_css demo_gen demo_tmp_dir demo_write_ok empty_world
         "Mozilla/5.0" "en" ["Comic"]) = GcErr InvalidFontError
  /\ fst (get_css demo_gen demo_tmp_dir demo_write_fail empty_world
            "Mozilla/5.0" "en" ["Arial"]) = GcErr IOError
  /\ cssCache (snd (get_css demo_gen demo_tmp_dir demo_write_fail empty_world
                      "Mozilla/5.0" "en" ["Arial"])) = cssCache empty_world.
Proof.
  split; [|split].
  - apply (proj1 (proj2 (get_css_failure_not_cached demo_gen demo_tmp_dir
                           demo_write_ok empty_world "Mozilla/5.0" "en"
                           ["Comic"]))); vm_compute; reflexivity.
  - exact (proj2 (proj2 (get_css_failure_not_cached demo_gen demo_tmp_dir
                           demo_write_fail empty_world "Mozilla/5.0" "en"
                           ["Arial"])) eq_refl "/* Mozilla/5.0 en */"
             "/tmp/tmp-1234" IOError eq_refl eq_refl eq_refl).
  - apply (proj1 (get_css_failure_not_cached demo_gen demo_tmp_dir
                    demo_write_fail empty_world "Mozilla/5.0" "en" ["Arial"])
             IOError).
    vm_compute. reflexivity.
Defined.

(** A miss for [("Mozilla/5.0", "en", ["Arial"])] from the initial state. *)
Lemma get_css_file_name_witness :
  exists o w1,
    get_css demo_gen demo_tmp_dir demo_write_ok empty_world
      "Mozilla/5.0" "en" ["Arial"] = (GcOk o, w1)
    /\ cssPath o = "/tmp/tmp-1234/Mozilla-5-0-en-Arial.css"
    /\ exists tmpPath,
         cssTmpPath w1 = Some tmpPath
         /\ (truthy (cssTmpPath empty_world) = true ->
             cssTmpPath empty_world = Some tmpPath)
         /\ cssPath o = path_join tmpPath
              (replace_non_word (getCacheKey "Mozilla/5.0" "en" ["Arial"])
                 ++ ".css")
         /\ disk w1 !! cssPath o = Some (css o)
         /\ cssCache w1 !! getCacheKey "Mozilla/5.0" "en" ["Arial"] = Some o.
Proof.
  do 2 eexists. split; [cbv; reflexivity|]. split; [reflexivity|].
  apply (get_css_file_name demo_gen demo_tmp_dir demo_write_ok empty_world);
    vm_compute; reflexivity.
Defined.

(** C6 fails: two distinct cache keys, [Mozilla/5.0-en-Arial] and
    [Mozilla 5.0-en-Arial], are sanitised to the same file name.  After
    both are requested the two cache entries hold the same [cssPath], and
    the file behind the first entry holds the CSS generated for the
    second. *)
Lemma css_file_shared_by_distinct_keys :
  getCacheKey "Mozilla/5.0" "en" ["Arial"]
    <> getCacheKey "Mozilla 5.0" "en" ["Arial"]
  /\ match get_css demo_gen demo_tmp_dir demo_write_ok empty_world
             "Mozilla/5.0" "en" ["Arial"] with
     | (GcOk o1, w1) =>
         match get_css demo_gen demo_tmp_dir demo_write_ok w1
                 "Mozilla 5.0" "en" ["Arial"] with
         | (GcOk o2, w2) =>
             cssPath o1 = cssPath o2
             /\ css o1 <> css o2
             /\ cssCache w2 !! getCacheKey "Mozilla/5.0" "en" ["Arial"]
                = Some o1
             /\ disk w2 !! cssPath o1 = Some (css o2)
         | _ => False
         end
     | _ => False
     end.
Proof.
  split.
  - vm_compute. discriminate.
  - vm_compute. split; [reflexivity|]. split; [discriminate|].
    split; reflexivity.
Qed.

(** * The cache key *)

Lemma has_char_app c a b :
  has_char c (a ++ b) = has_char c a || has_char c b.
Proof.
  induction a as [|x a IH]; simpl; [reflexivity|].
  destruct (Ascii.eqb x c); simpl; [reflexivity|exact IH].
Qed.

(** Splitting at the first occurrence of a separator. *)
Lemma split_at_sep c a1 a2 r1 r2 :
  has_char c a1 = false -> has_char c a2 = false ->
  a1 ++ String c r1 = a2 ++ String c r2 -> a1 = a2 /\ r1 = r2.
Proof.
  revert a2. induction a1 as [|x a1 IH]; intros [|y a2] H1 H2 H; cbn in *.
  - injection H as ->. split; reflexivity.
  - injection H as -> _. rewrite Ascii.eqb_refl in H2. discriminate.
  - injection H as <- _. rewrite Ascii.eqb_refl in H1. discriminate.
  - injection H as <- H.
    destruct (Ascii.eqb x c); [discriminate|].
    destruct (IH a2 H1 H2 H) as [-> ->]. split; reflexivity.
Qed.

(** Joining a non-empty list of comma-free names with [","] is
    injective. *)
Lemma array_to_string_inj (f1 f2 : list string) :
  f1 <> [] -> f2 <> [] ->
  Forall (fun s => has_char comma s = false) f1 ->
  Forall (fun s => has_char comma s = false) f2 ->
  array_to_string f1 = array_to_string f2 -> f1 = f2.
Proof.
  unfold array_to_string.
  revert f2. induction f1 as [|x f1 IH]; intros f2 Hn1 Hn2 F1 F2 H;
    [congruence|].
  destruct f2 as [|y f2]; [congruence|].
  inversion F1 as [|? ? Hx F1']; subst. inversion F2 as [|? ? Hy F2']; subst.
  destruct f1 as [|x' f1]; destruct f2 as [|y' f2].
  - cbn in H. subst. reflexivity.
  - change (x = y ++ String comma (String.concat "," (y' :: f2))) in H.
    subst x. rewrite has_char_app in Hx. cbn in Hx.
    rewrite Bool.orb_true_r in Hx. discriminate.
  - change (x ++ String comma (String.concat "," (x' :: f1)) = y) in H.
    subst y. rewrite has_char_app in Hy. cbn in Hy.
    rewrite Bool.orb_true_r in Hy. discriminate.
  - change (x ++ String comma (String.concat "," (x' :: f1))
            = y ++ String comma (String.concat "," (y' :: f2))) in H.
    destruct (split_at_sep _ _ _ _ _ Hx Hy H) as [-> Hr].
    f_equal. apply IH; auto; discriminate.
Qed.

(** C3 fails: the key is a plain [-]-delimited concatenation, and a dash
    inside the user agent or the locale is indistinguishable from the
    delimiter.  The user agent [Mozilla/5.0] with locale [en-US] and the
    user agent [Mozilla/5.0-en] with locale [US] share a key. *)
Lemma getCacheKey_collision :
  ("Mozilla/5.0", "en-US") <> ("Mozilla/5.0-en", "US")
  /\ getCacheKey "Mozilla/5.0" "en-US" ["Arial"]
     = getCacheKey "Mozilla/5.0-en" "US" ["Arial"].
Proof. split; [discriminate|reflexivity]. Qed.

(** C3 (as the code does it): the key determines the tuple when neither
    the user agent nor the locale contains a dash and the font list is
    non-empty with no comma in any name (as [split(',')] produces). *)
Theorem getCacheKey_injective_without_delimiters
    ua1 locale1 (fonts1 : list string) ua2 locale2 (fonts2 : list string) :
  has_char dash ua1 = false -> has_char dash ua2 = false ->
  has_char dash locale1 = false -> has_char dash locale2 = false ->
  fonts1 <> [] -> fonts2 <> [] ->
  Forall (fun s => has_char comma s = false) fonts1 ->
  Forall (fun s => has_char comma s = false) fonts2 ->
  getCacheKey ua1 locale1 fonts1 = getCacheKey ua2 locale2 fonts2 ->
  ua1 = ua2 /\ locale1 = locale2 /\ fonts1 = fonts2.
Proof.
  intros Hu1 Hu2 Hl1 Hl2 Hn1 Hn2 F1 F2 H. unfold getCacheKey in H.
  change (ua1 ++ String dash (locale1 ++ String dash (array_to_string fonts1))
          = ua2 ++ String dash (locale2 ++ String dash (array_to_string fonts2)))
    in H.
  destruct (split_at_sep _ _ _ _ _ Hu1 Hu2 H) as [-> H'].
  destruct (split_at_sep _ _ _ _ _ Hl1 Hl2 H') as [-> H''].
  split; [reflexivity|split; [reflexivity|]].
  apply array_to_string_inj; assumption.
Qed.

Lemma getCacheKey_injective_without_delimiters_witness :
  "Mozilla/5.0" = "Mozilla/5.0" /\ "en" = "en"
  /\ ["Arial"; "Roboto"] = ["Arial"; "Roboto"].
Proof.
  apply (getCacheKey_injective_without_delimiters
           "Mozilla/5.0" "en" ["Arial"; "Roboto"]
           "Mozilla/5.0" "en" ["Arial"; "Roboto"]);
    try reflexivity; try discriminate; repeat constructor.
Defined.

(** * Cache-control headers *)

Lemma string_append_empty_r (s : string) : s ++ "" = s.
Proof. induction s as [|a s IH]; [reflexivity|exact (f_equal (String a) IH)]. Qed.

Lemma string_append_cancel_l (p a b : string) : p ++ a = p ++ b -> a = b.
Proof.
  induction p as [|c p IH]; intros H; [exact H|].
  apply IH. injection H as H. exact H.
Qed.

Lemma string_of_uint_no_dot (d : Decimal.uint) :
  has_char "." (NilEmpty.string_of_uint d) = false.
Proof. induction d; simpl; assumption || reflexivity. Qed.

(** [String(n)] of an integer contains no decimal point. *)
Lemma dec_of_Z_no_dot (n : Z) : has_char "." (dec_of_Z n) = false.
Proof.
  unfold dec_of_Z, NilZero.string_of_int, NilZero.string_of_uint.
  destruct (Z.to_int n) as [d|d]; destruct d; simpl;
    try reflexivity; apply string_of_uint_no_dot.
Qed.

(** A whole number of seconds is printed as that integer. *)
Lemma js_div1000_to_string_whole (n : Z) :
  (0 <= n)%Z -> (1000 * n < 10^15)%Z ->
  js_div1000_to_string (1000 * n) = dec_of_Z n.
Proof.
  intros Hn _. unfold js_div1000_to_string.
  rewrite (Z.abs_eq (1000 * n)) by lia.
  rewrite (Z.mul_comm 1000 n), Z.div_mul, Z.mod_mul by lia.
  rewrite (proj2 (Z.ltb_ge (n * 1000) 0)) by lia.
  apply string_append_empty_r.
Qed.

Ltac lookup_ne := rewrite lookup_insert_ne by (discriminate || congruence).

(** X14 (setCacheControlHeaders): with [maxAge] zero the headers are left
    alone; otherwise, for [|maxAge| < 10^15], a [Date] header is added when
    absent or empty, a [Cache-Control] header
    [public, max-age=<String(maxAge/1000)>] is added when absent or empty,
    and nothing else changes.  A whole number [n] of seconds below [10^12]
    is printed as the integer [n], and [maxAge = 3600000] gives
    [public, max-age=3600]. *)
Theorem setCacheControlHeaders_spec (maxAge : Z) (now : string) (h : gmap string string) :
  (maxAge = 0%Z -> setCacheControlHeaders maxAge now h = h)
  /\ (maxAge <> 0%Z -> (Z.abs maxAge < 10^15)%Z ->
      setCacheControlHeaders maxAge now h !! "date"
        = (if truthy (h !! "date") then h !! "date" else Some now)
      /\ setCacheControlHeaders maxAge now h !! "cache-control"
        = (if truthy (h !! "cache-control") then h !! "cache-control"
           else Some ("public, max-age=" ++ js_div1000_to_string maxAge))
      /\ (forall k, k <> "date" -> k <> "cache-control" ->
          setCacheControlHeaders maxAge now h !! k = h !! k))
  /\ (forall n, (0 <= n)%Z -> (1000 * n < 10^15)%Z ->
      js_div1000_to_string (1000 * n) = dec_of_Z n)
  /\ setCacheControlHeaders 3600000 now ∅ !! "cache-control"
     = Some "public, max-age=3600".
Proof.
  split; [|split; [|split]].
  - intros ->. reflexivity.
  - intros Hm _. unfold setCacheControlHeaders.
    rewrite (proj2 (Z.eqb_neq maxAge 0) Hm). cbn [negb].
    destruct (truthy (h !! "date")) eqn:Hd;
      [|assert (<["date" := now]> h !! "cache-control" = h !! "cache-control")
          as Hcc by (lookup_ne; reflexivity); rewrite Hcc];
      destruct (truthy (h !! "cache-control")) eqn:Hc;
      (split; [|split]);
      try (intros k Hk1 Hk2; repeat lookup_ne; reflexivity);
      repeat (rewrite lookup_insert_eq || lookup_ne);
      rewrite ?Hd, ?Hc; reflexivity.
  - apply js_div1000_to_string_whole.
  - reflexivity.
Qed.

(** C5 fails: [maxAge] is divided by 1000 as a real number, so a value
    that is not a whole number of seconds yields a fractional max-age:
    [1500] gives [public, max-age=1.5], which is not
    [public, max-age=<n>] for any integer [n]. *)
Lemma setCacheControlHeaders_fractional :
  setCacheControlHeaders 1500 "Thu, 01 Jan 1970 00:00:00 GMT" ∅
    !! "cache-control" = Some "public, max-age=1.5"
  /\ forall n : Z,
     setCacheControlHeaders 1500 "Thu, 01 Jan 1970 00:00:00 GMT" ∅
       !! "cache-control" <> Some ("public, max-age=" ++ dec_of_Z n).
Proof.
  assert (Hv : setCacheControlHeaders 1500 "Thu, 01 Jan 1970 00:00:00 GMT" ∅
                !! "cache-control" = Some ("public, max-age=" ++ "1.5"))
    by reflexivity.
  split; [exact Hv|].
  intros n H. rewrite Hv in H. injection H as H.
  apply string_append_cancel_l in H.
  pose proof (dec_of_Z_no_dot n) as Hn. rewrite <- H in Hn.
  discriminate.
Qed.

(** * The URL pattern *)

Lemma string_app_cons a (s t : string) : String a s ++ t = String a (s ++ t).
Proof. reflexivity. Qed.

Lemma count_char_app c a b :
  count_char c (a ++ b) = count_char c a + count_char c b.
Proof.
  induction a as [|x a IH]; [reflexivity|].
  change (count_char c (String x (a ++ b))
          = (if Ascii.eqb x c then 1 else 0) + count_char c a + count_char c b).
  cbn [count_char]. rewrite IH. lia.
Qed.

Lemma take_seg_spec s p q :
  take_seg s = (p, q) -> s = p ++ q /\ count_char slash p = 0.
Proof.
  revert p q. induction s as [|a s IH]; intros p q H; cbn in H.
  - injection H as <- <-. split; reflexivity.
  - destruct (Ascii.eqb a slash) eqn:Ha.
    + injection H as <- <-. split; reflexivity.
    + destruct (take_seg s) as [p' q'] eqn:Ht. injection H as <- <-.
      destruct (IH p' q' eq_refl) as [-> Hc].
      split; [reflexivity|]. cbn. rewrite Ha. exact Hc.
Qed.

(** The longest slash-free prefix of [p ++ "/" ++ r] is [p], when [p]
    is slash-free. *)
Lemma take_seg_app p r :
  has_char slash p = false -> take_seg (p ++ String slash r) = (p, String slash r).
Proof.
  induction p as [|a p IH]; intros H.
  - reflexivity.
  - rewrite string_app_cons. cbn [take_seg has_char] in *.
    destruct (Ascii.eqb a slash); [discriminate|]. rewrite (IH H). reflexivity.
Qed.

Lemma take_seg_count s p q :
  take_seg s = (p, q) -> count_char slash q = count_char slash s.
Proof.
  intros H. destruct (take_seg_spec s p q H) as [-> Hp].
  rewrite count_char_app, Hp. reflexivity.
Qed.

Lemma match_no_locale_count r m :
  match_no_locale r = Some m -> count_char slash r = 1.
Proof.
  unfold match_no_locale. destruct (take_seg r) as [s2 r2] eqn:Ht.
  destruct (negb (is_empty s2) && String.eqb r2 "/fonts.css") eqn:Hb;
    [|discriminate]. intros _.
  apply andb_prop in Hb as [_ Hb]. apply String.eqb_eq in Hb. subst r2.
  rewrite <- (take_seg_count r s2 _ Ht). reflexivity.
Qed.

(** A match anchored at the start of [t] begins with a slash and contains
    at most three slashes. *)
Lemma match_at_count t m :
  match_at t = Some m ->
  exists r, t = String slash r /\ count_char slash r <= 2.
Proof.
  destruct t as [|a r]; [discriminate|]. unfold match_at.
  destruct (Ascii.eqb a slash) eqn:Ha; [|discriminate].
  apply Ascii.eqb_eq in Ha. subst a. intros H. exists r. split; [reflexivity|].
  destruct (take_seg r) as [s1 r1] eqn:Ht1.
  pose proof (take_seg_count r s1 r1 Ht1) as C1.
  destruct (is_empty s1).
  - pose proof (match_no_locale_count r m H). lia.
  - destruct r1 as [|b r2].
    + pose proof (match_no_locale_count r m H). lia.
    + destruct (Ascii.eqb b slash) eqn:Hb.
      * destruct (take_seg r2) as [s2 r3] eqn:Ht2.
        destruct (negb (is_empty s2) && String.eqb r3 "/fonts.css") eqn:Hm.
        -- apply andb_prop in Hm as [_ Hm]. apply String.eqb_eq in Hm.
           subst r3. pose proof (take_seg_count r2 s2 _ Ht2) as C2.
           cbn in C1, C2. rewrite Hb in C1. lia.
        -- pose proof (match_no_locale_count r m H). lia.
      * pose proof (match_no_locale_count r m H). lia.
Qed.

(** [exec] skips any prefix before a suffix with three slashes or more:
    no match can start inside the prefix. *)
Lemma regex_exec_skip_prefix pre suf :
  3 <= count_char slash suf -> regex_exec (pre ++ suf) = regex_exec suf.
Proof.
  intros Hs. induction pre as [|c pre IH]; [reflexivity|].
  rewrite string_app_cons.
  change (regex_exec (String c (pre ++ suf))) with
    (match match_at (String c (pre ++ suf)) with
     | Some m => Some m
     | None => regex_exec (pre ++ suf)
     end).
  destruct (match_at (String c (pre ++ suf))) as [m|] eqn:Hm; [|exact IH].
  destruct (match_at_count _ _ Hm) as [r [Hr Hc]].
  injection Hr as _ <-. rewrite count_char_app in Hc. lia.
Qed.

(** The suffix [/<seg1>/<seg2>/fonts.css] matches at its start. *)
Lemma match_at_suffix s1 s2 :
  s1 <> "" -> s2 <> "" ->
  has_char slash s1 = false -> has_char slash s2 = false ->
  match_at (String slash (s1 ++ String slash (s2 ++ "/fonts.css")))
  = Some (Some s1, s2).
Proof.
  intros N1 N2 H1 H2. unfold match_at. rewrite Ascii.eqb_refl.
  rewrite (take_seg_app s1 _ H1).
  destruct s1 as [|a1 s1]; [congruence|]. cbn [is_empty].
  rewrite Ascii.eqb_refl.
  change "/fonts.css" with (String slash "fonts.css").
  rewrite (take_seg_app s2 _ H2).
  destruct s2 as [|a2 s2]; [congruence|]. reflexivity.
Qed.

Lemma count_suffix s1 s2 :
  has_char slash s1 = false -> has_char slash s2 = false ->
  count_char slash (String slash (s1 ++ String slash (s2 ++ "/fonts.css"))) = 3.
Proof.
  intros H1 H2.
  assert (forall s, has_char slash s = false -> count_char slash s = 0) as Z0.
  { induction s as [|a s IH]; [reflexivity|]. cbn.
    destruct (Ascii.eqb a slash); [discriminate|exact IH]. }
  change (1 + count_char slash (s1 ++ String slash (s2 ++ "/fonts.css")) = 3).
  rewrite count_char_app. cbn [count_char Ascii.eqb slash].
  rewrite count_char_app, Z0, Z0 by assumption. reflexivity.
Qed.

(** * The responder *)

Section Responder.

Variable gen : string -> string -> list string -> js_error + string.
Variable td : js_error + string.
Variable wr : string -> string -> option js_error.

Lemma locale_of_nonempty m1 : is_empty (locale_of m1) = false.
Proof.
  unfold locale_of, truthy. destruct m1 as [l|]; [|reflexivity].
  destruct l; reflexivity.
Qed.

(** A matched GET request with a user agent goes to [get_css] with the
    locale and the comma-split font list taken from the match. *)
Lemma responder_matched cfg (w : world) req m1 m2 u :
  method req = "GET" -> regex_exec (url req) = Some (m1, m2) ->
  resolve_ua cfg req = Some u -> u <> "" ->
  font_css_responder gen td wr cfg w req
  = let (r, w') := get_css gen td wr w u (locale_of m1) (split_comma m2) in
    css_callback cfg r w'.
Proof.
  intros Hg Hm Hu Hne. unfold font_css_responder.
  rewrite Hg, Hm, Hu. cbn [String.eqb Ascii.eqb Bool.eqb].
  rewrite locale_of_nonempty.
  destruct u as [|a u]; [congruence|]. reflexivity.
Qed.

(** C2: [/en/Arial,Roboto/fonts.css] is served for locale ["en"] and
    fonts [["Arial"; "Roboto"]]; [/Arial,Roboto/fonts.css] for locale
    ["default"] and the same fonts. *)
Theorem font_css_responder_locale_and_fonts cfg (w : world) req u :
  method req = "GET" -> resolve_ua cfg req = Some u -> u <> "" ->
  (url req = "/en/Arial,Roboto/fonts.css" ->
   font_css_responder gen td wr cfg w req
   = let (r, w') := get_css gen td wr w u "en" ["Arial"; "Roboto"] in
     css_callback cfg r w')
  /\ (url req = "/Arial,Roboto/fonts.css" ->
      font_css_responder gen td wr cfg w req
      = let (r, w') := get_css gen td wr w u "default" ["Arial"; "Roboto"] in
        css_callback cfg r w').
Proof.
  intros Hg Hu Hne. split; intros Hurl.
  - apply (responder_matched cfg w req (Some "en") "Arial,Roboto" u Hg);
      [rewrite Hurl; reflexivity|assumption|assumption].
  - apply (responder_matched cfg w req None "Arial,Roboto" u Hg);
      [rewrite Hurl; reflexivity|assumption|assumption].
Qed.

(** C4: when [get_css] reports an [InvalidFontError] the responder calls
    [next()]; any other error reported by [get_css] is thrown. *)
Theorem font_css_responder_errors cfg (w : world) req m1 m2 u e w' :
  method req = "GET" -> regex_exec (url req) = Some (m1, m2) ->
  resolve_ua cfg req = Some u -> u <> "" ->
  get_css gen td wr w u (locale_of m1) (split_comma m2) = (GcErr e, w') ->
  (e = InvalidFontError ->
   font_css_responder gen td wr cfg w req = ([CallNext], w'))
  /\ (e <> InvalidFontError ->
      font_css_responder gen td wr cfg w req = ([Throw e], w')).
Proof.
  intros Hg Hm Hu Hne Hc.
  rewrite (responder_matched cfg w req m1 m2 u Hg Hm Hu Hne), Hc.
  cbn [css_callback]. split.
  - intros ->. reflexivity.
  - intros Hn. destruct e; try reflexivity. congruence.
Qed.

(** C8: a request that is not a GET, or whose URL does not match the
    pattern, is passed to [next()] and the state is left untouched. *)
Theorem font_css_responder_unmatched cfg (w : world) req :
  (method req <> "GET" ->
   font_css_responder gen td wr cfg w req = ([CallNext], w))
  /\ (regex_exec (url req) = None ->
      font_css_responder gen td wr cfg w req = ([CallNext], w)).
Proof.
  unfold font_css_responder. split; intros H.
  - destruct (String.eqb (method req) "GET") eqn:E; [|reflexivity].
    apply String.eqb_eq in E. contradiction.
  - rewrite H. destruct (String.eqb (method req) "GET"); reflexivity.
Qed.

(** C9: the pattern is anchored only at the end of the URL.  Whatever
    precedes [/<seg1>/<seg2>/fonts.css], the request is served for locale
    [seg1] and the fonts of [seg2]. *)
Theorem font_css_responder_suffix_match cfg (w : world) req pre s1 s2 u :
  s1 <> "" -> s2 <> "" ->
  has_char slash s1 = false -> has_char slash s2 = false ->
  url req = pre ++ "/" ++ s1 ++ "/" ++ s2 ++ "/fonts.css" ->
  regex_exec (url req) = Some (Some s1, s2)
  /\ (method req = "GET" -> resolve_ua cfg req = Some u -> u <> "" ->
      font_css_responder gen td wr cfg w req
      = let (r, w') := get_css gen td wr w u s1 (split_comma s2) in
        css_callback cfg r w').
Proof.
  intros N1 N2 H1 H2 Hurl.
  assert (Hm : regex_exec (url req) = Some (Some s1, s2)).
  { rewrite Hurl.
    change ("/" ++ s1 ++ "/" ++ s2 ++ "/fonts.css")
      with (String slash (s1 ++ String slash (s2 ++ "/fonts.css"))).
    rewrite regex_exec_skip_prefix by (rewrite count_suffix by assumption; lia).
    change (match match_at (String slash (s1 ++ String slash (s2 ++ "/fonts.css")))
            with Some m => Some m
            | None => regex_exec (s1 ++ String slash (s2 ++ "/fonts.css")) end
            = Some (Some s1, s2)).
    rewrite match_at_suffix by assumption. reflexivity. }
  split; [exact Hm|]. intros Hg Hu Hne.
  rewrite (responder_matched cfg w req (Some s1) s2 u Hg Hm Hu Hne).
  unfold locale_of, truthy. destruct s1; [congruence|]. reflexivity.
Qed.

(** C10: with no user agent configured and none in the request, the
    responder does not call [get_css]: it calls [next()] and the state,
    the generator log included, is unchanged. *)
Theorem font_css_responder_no_ua cfg (w : world) req :
  truthy (cfg_ua cfg) = false -> truthy (ua_header req) = false ->
  font_css_responder gen td wr cfg w req = ([CallNext], w).
Proof.
  intros Hc Hh. unfold font_css_responder.
  assert (Hu : resolve_ua cfg req = ua_header req)
    by (unfold resolve_ua; rewrite Hc; reflexivity).
  destruct (String.eqb (method req) "GET"); [|reflexivity].
  destruct (regex_exec (url req)) as [[m1 m2]|]; [|reflexivity].
  rewrite Hu. destruct (ua_header req) as [h|]; [|reflexivity].
  rewrite Hh. reflexivity.
Qed.

End Responder.

(** * Evaluations of the responder theorems on concrete requests *)

Lemma font_css_responder_locale_and_fonts_witness :
  font_css_responder demo_gen demo_tmp_dir demo_write_ok demo_config
    empty_world (get_request "/en/Arial,Roboto/fonts.css" (Some demo_ua))
  = (let (r, w') := get_css demo_gen demo_tmp_dir demo_write_ok empty_world
                      demo_ua "en" ["Arial"; "Roboto"] in
     css_callback demo_config r w')
  /\ font_css_responder demo_gen demo_tmp_dir demo_write_ok demo_config
       empty_world (get_request "/Arial,Roboto/fonts.css" (Some demo_ua))
     = (let (r, w') := get_css demo_gen demo_tmp_dir demo_write_ok empty_world
                         demo_ua "default" ["Arial"; "Roboto"] in
        css_callback demo_config r w').
Proof.
  split.
  - apply (proj1 (font_css_responder_locale_and_fonts demo_gen demo_tmp_dir
                    demo_write_ok demo_config empty_world
                    (get_request "/en/Arial,Roboto/fonts.css" (Some demo_ua))
                    demo_ua eq_refl eq_refl ltac:(discriminate))).
    reflexivity.
  - apply (proj2 (font_css_responder_locale_and_fonts demo_gen demo_tmp_dir
                    demo_write_ok demo_config empty_world
                    (get_request "/Arial,Roboto/fonts.css" (Some demo_ua))
                    demo_ua eq_refl eq_refl ltac:(discriminate))).
    reflexivity.
Defined.

(** An unknown font, and a generator that fails otherwise. *)
Lemma font_css_responder_errors_witness :
  font_css_responder demo_gen demo_tmp_dir demo_write_ok demo_config
    empty_world (get_request "/en/Comic/fonts.css" (Some demo_ua))
  = ([CallNext], snd (get_css demo_gen demo_tmp_dir demo_write_ok empty_world
                        demo_ua "en" ["Comic"]))
  /\ font_css_responder demo_gen_broken demo_tmp_dir demo_write_ok demo_config
       empty_world (get_request "/en/Arial/fonts.css" (Some demo_ua))
     = ([Throw GenerationError],
        snd (get_css demo_gen_broken demo_tmp_dir demo_write_ok empty_world
               demo_ua "en" ["Arial"])).
Proof.
  split.
  - apply (proj1 (font_css_responder_errors demo_gen demo_tmp_dir
                    demo_write_ok demo_config empty_world
                    (get_request "/en/Comic/fonts.css" (Some demo_ua))
                    (Some "en") "Comic" demo_ua InvalidFontError _
                    eq_refl eq_refl eq_refl ltac:(discriminate) eq_refl)).
    reflexivity.
  - apply (proj2 (font_css_responder_errors demo_gen_broken demo_tmp_dir
                    demo_write_ok demo_config empty_world
                    (get_request "/en/Arial/fonts.css" (Some demo_ua))
                    (Some "en") "Arial" demo_ua GenerationError _
                    eq_refl eq_refl eq_refl ltac:(discriminate) eq_refl)).
    discriminate.
Defined.

(** A POST to a font URL, and a GET of another page. *)
Lemma font_css_responder_unmatched_witness :
  font_css_responder demo_gen demo_tmp_dir demo_write_ok demo_config
    empty_world (mk_request "POST" "/en/Arial/fonts.css" (Some demo_ua))
  = ([CallNext], empty_world)
  /\ font_css_responder demo_gen demo_tmp_dir demo_write_ok demo_config
       empty_world (get_request "/en/Arial/index.html" (Some demo_ua))
     = ([CallNext], empty_world).
Proof.
  split.
  - apply (proj1 (font_css_responder_unmatched demo_gen demo_tmp_dir
                    demo_write_ok demo_config empty_world
                    (mk_request "POST" "/en/Arial/fonts.css" (Some demo_ua)))).
    discriminate.
  - apply (proj2 (font_css_responder_unmatched demo_gen demo_tmp_dir
                    demo_write_ok demo_config empty_world
                    (get_request "/en/Arial/index.html" (Some demo_ua)))).
    vm_compute. reflexivity.
Defined.

(** [/extra/en/Arial/fonts.css] is served for locale ["en"]. *)
Lemma font_css_responder_suffix_match_witness :
  regex_exec "/extra/en/Arial/fonts.css" = Some (Some "en", "Arial")
  /\ font_css_responder demo_gen demo_tmp_dir demo_write_ok demo_config
       empty_world (get_request "/extra/en/Arial/fonts.css" (Some demo_ua))
     = (let (r, w') := get_css demo_gen demo_tmp_dir demo_write_ok empty_world
                         demo_ua "en" ["Arial"] in
        css_callback demo_config r w').
Proof.
  destruct (font_css_responder_suffix_match demo_gen demo_tmp_dir
              demo_write_ok demo_config empty_world
              (get_request "/extra/en/Arial/fonts.css" (Some demo_ua))
              "/extra" "en" "Arial" demo_ua
              ltac:(discriminate) ltac:(discriminate) eq_refl eq_refl eq_refl)
    as [Hm Hr].
  split; [exact Hm|]. apply Hr; [reflexivity|reflexivity|discriminate].
Defined.

(** No configured user agent and no [user-agent] header. *)
Lemma font_css_responder_no_ua_witness :
  font_css_responder demo_gen demo_tmp_dir demo_write_ok demo_config
    empty_world (get_request "/en/Arial/fonts.css" None)
  = ([CallNext], empty_world).
Proof.
  apply (font_css_responder_no_ua demo_gen demo_tmp_dir demo_write_ok
           demo_config empty_world (get_request "/en/Arial/fonts.css" None));
    reflexivity.
Defined.

(** One hour of [maxAge] on a response with no headers yet. *)
Lemma setCacheControlHeaders_spec_witness :
  setCacheControlHeaders 3600000 "Thu, 01 Jan 1970 00:00:00 GMT" ∅ !! "date"
  = Some "Thu, 01 Jan 1970 00:00:00 GMT"
  /\ js_div1000_to_string (1000 * 86400)%Z = dec_of_Z 86400%Z.
Proof.
  split.
  - apply (proj1 (proj1 (proj2 (setCacheControlHeaders_spec 3600000
                                  "Thu, 01 Jan 1970 00:00:00 GMT" ∅))
                    ltac:(discriminate) ltac:(vm_compute; reflexivity))).
  - apply (proj1 (proj2 (proj2 (setCacheControlHeaders_spec 3600000
                                  "Thu, 01 Jan 1970 00:00:00 GMT" ∅)))
             86400%Z ltac:(lia) ltac:(vm_compute; reflexivity)).
Defined.

(** * Further properties of [get_css] *)

Section GetCssMore.

Variable gen : string -> string -> list string -> js_error + string.
Variable td : js_error + string.
Variable wr : string -> string -> option js_error.

Ltac unfold_get_css' :=
  unfold get_css, generate_css, prepareTmpPath, log_gen_call,
    set_cssCache, set_cssTmpPath, set_disk in *;
  cbn [cssCache cssTmpPath disk gen_calls] in *.

Ltac case_wr' :=
  match goal with |- context [wr ?a ?b] => destruct (wr a b) eqn:? end.

(** Splits [get_css] into its cases, leaving one goal per outcome with
    the resulting state substituted. *)
Ltac get_css_cases w ua locale fonts :=
  unfold_get_css';
  destruct (cssCache w !! getCacheKey ua locale fonts) as [hit|] eqn:Hkey;
  [|destruct (gen ua locale fonts) as [gerr|cssStr] eqn:Hgen;
    [|destruct (cssTmpPath w) as [p|] eqn:Hp; cbn [cssTmpPath truthy];
      [destruct (negb (is_empty p)) eqn:Hne;
       [|destruct td as [terr|tmpPath] eqn:Htd]
      |destruct td as [terr|tmpPath] eqn:Htd];
      try case_wr']].

(** X5: the generator is called exactly once on a cache miss and not at
    all on a hit. *)
Theorem get_css_generator_calls (w : world) ua locale fonts :
  gen_calls (snd (get_css gen td wr w ua locale fonts))
  = match cssCache w !! getCacheKey ua locale fonts with
    | Some _ => gen_calls w
    | None => (gen_calls w ++ [(ua, locale, fonts)])%list
    end.
Proof. get_css_cases w ua locale fonts; reflexivity. Qed.

(** X6: [get_css] never removes or replaces a cache entry; the only entry
    it may add is the one under the requested key. *)
Theorem get_css_cache_monotone (w : world) ua locale fonts :
  (forall k v, cssCache w !! k = Some v ->
   cssCache (snd (get_css gen td wr w ua locale fonts)) !! k = Some v)
  /\ (forall k, k <> getCacheKey ua locale fonts ->
      cssCache (snd (get_css gen td wr w ua locale fonts)) !! k
      = cssCache w !! k).
Proof.
  split.
  - intros k v Hk. get_css_cases w ua locale fonts; cbn [snd cssCache]; try exact Hk;
      (rewrite lookup_insert_ne; [exact Hk|]);
      intros Heq; rewrite <- Heq in Hk; congruence.
  - intros k Hk. get_css_cases w ua locale fonts; cbn [snd cssCache]; try reflexivity;
      apply lookup_insert_ne; congruence.
Qed.

(** X7: once a temporary directory is memoised it is kept: [get_css]
    never replaces it and never calls [tmp.dir] again, so its result and
    final state are the same whatever [tmp.dir] would return. *)
Theorem get_css_keeps_tmp_dir (w : world) ua locale fonts
  (td' : js_error + string) :
  truthy (cssTmpPath w) = true ->
  get_css gen td wr w ua locale fonts = get_css gen td' wr w ua locale fonts
  /\ cssTmpPath (snd (get_css gen td wr w ua locale fonts)) = cssTmpPath w.
Proof.
  intros Ht. split.
  - unfold get_css, generate_css, prepareTmpPath, log_gen_call.
    cbn [cssTmpPath]. destruct (cssCache w !! _); [reflexivity|].
    destruct (gen ua locale fonts); [reflexivity|].
    cbn [cssTmpPath]. rewrite Ht. reflexivity.
  - get_css_cases w ua locale fonts; cbn [snd cssTmpPath truthy] in *; try reflexivity;
      try discriminate; rewrite Ht in Hne; discriminate.
Qed.

(** X8: when the generator succeeds but no directory is memoised and
    [tmp.dir] fails, the error of [tmp.dir] is dropped: [path.join] throws
    a [TypeError] from inside the callback, nothing is written and nothing
    is cached. *)
Theorem get_css_tmp_dir_failure (w : world) ua locale fonts cssStr e :
  cssCache w !! getCacheKey ua locale fonts = None ->
  gen ua locale fonts = inr cssStr ->
  truthy (cssTmpPath w) = false ->
  td = inl e ->
  get_css gen td wr w ua locale fonts
  = (GcRaise TypeError, log_gen_call (ua, locale, fonts) w).
Proof.
  intros Hmiss Hg Ht He. unfold get_css, generate_css, prepareTmpPath.
  rewrite Hmiss, Hg. unfold log_gen_call at 1. cbn [cssTmpPath].
  rewrite Ht, He. reflexivity.
Qed.

End GetCssMore.

(** * Properties of [setup] *)

(** X3: after a successful [setup], any previously cached request is
    regenerated: [get_css] misses and calls the generator. *)
Theorem setup_then_get_css_regenerates {F L : Type}
    gen td wr (o : setup_options F L) (s s' : module_state F L)
    ua locale fonts :
  setup o s = (None, s') ->
  gen_calls (snd (get_css gen td wr (ms_world s') ua locale fonts))
  = (gen_calls (ms_world s) ++ [(ua, locale, fonts)])%list.
Proof.
  intros H. unfold setup, checkRequired in H.
  destruct (opt_fonts o) as [f|]; [|discriminate].
  destruct (opt_locale_to_url_keys o) as [l|]; [|discriminate].
  injection H as <-. cbn [ms_world].
  rewrite (get_css_generator_calls gen td wr). reflexivity.
Qed.

(** X4: with no [maxage] option the responder's header hook leaves the
    response headers untouched. *)
Theorem setup_default_no_cache_headers {F L : Type}
    (o : setup_options F L) (s s' : module_state F L) cfg now
    (h : gmap string string) :
  setup o s = (None, s') -> ms_config s' = Some cfg ->
  opt_maxage o = None ->
  setCacheControlHeaders (maxAge cfg) now h = h.
Proof.
  intros H Hc Hm. unfold setup, checkRequired in H.
  destruct (opt_fonts o) as [f|]; [|discriminate].
  destruct (opt_locale_to_url_keys o) as [l|]; [|discriminate].
  injection H as <-. cbn in Hc. injection Hc as <-. cbn.
  rewrite Hm. reflexivity.
Qed.

(** * [split(',')], the URL match and the file name *)

Lemma concat_comma_cons a h (t : list string) :
  String.concat "," (String a h :: t) = String a (String.concat "," (h :: t)).
Proof. destruct t; reflexivity. Qed.

(** X9: [fonts.split(',')] is never empty, has one more piece than there
    are commas, yields comma-free pieces, and joining them back with
    [","] (as the cache key does) gives the original segment. *)
Theorem split_comma_spec (s : string) :
  split_comma s <> []
  /\ length (split_comma s) = S (count_char comma s)
  /\ Forall (fun x => has_char comma x = false) (split_comma s)
  /\ array_to_string (split_comma s) = s.
Proof.
  unfold array_to_string.
  induction s as [|a r [IHn [IHl [IHf IHj]]]].
  - repeat split; [discriminate|repeat constructor].
  - cbn [split_comma count_char]. destruct (Ascii.eqb a comma) eqn:Ha.
    + apply Ascii.eqb_eq in Ha. subst a.
      repeat split.
      * discriminate.
      * cbn. rewrite IHl. reflexivity.
      * constructor; [reflexivity|exact IHf].
      * destruct (split_comma r) as [|h t]; [congruence|].
        change (String comma (String.concat "," (h :: t)) = String comma r).
        rewrite IHj. reflexivity.
    + destruct (split_comma r) as [|h t]; [congruence|].
      repeat split.
      * discriminate.
      * cbn in IHl |- *. rewrite IHl. reflexivity.
      * inversion IHf as [|? ? Hh Ht]; subst.
        constructor; [cbn; rewrite Ha; exact Hh|exact Ht].
      * rewrite concat_comma_cons, IHj. reflexivity.
Qed.

Lemma take_seg_no_slash s p q :
  take_seg s = (p, q) -> s = p ++ q /\ has_char slash p = false.
Proof.
  revert p q. induction s as [|a s IH]; intros p q H; cbn in H.
  - injection H as <- <-. split; reflexivity.
  - destruct (Ascii.eqb a slash) eqn:Ha.
    + injection H as <- <-. split; reflexivity.
    + destruct (take_seg s) as [p' q'] eqn:Ht. injection H as <- <-.
      destruct (IH p' q' eq_refl) as [-> Hc].
      split; [reflexivity|]. cbn. rewrite Ha. exact Hc.
Qed.

(** What a match at the start of [t] says about [t]. *)
Definition match_shape (t : string) (m : url_match) : Prop :=
  let (m1, m2) := m in
  m2 <> "" /\ has_char slash m2 = false
  /\ match m1 with
     | None => t = String slash (m2 ++ "/fonts.css")
     | Some l => l <> "" /\ has_char slash l = false
                 /\ t = String slash (l ++ String slash (m2 ++ "/fonts.css"))
     end.

Lemma match_no_locale_shape r m :
  match_no_locale r = Some m -> match_shape (String slash r) m.
Proof.
  unfold match_no_locale. destruct (take_seg r) as [s2 r2] eqn:Ht.
  destruct (negb (is_empty s2) && String.eqb r2 "/fonts.css") eqn:Hb;
    [|discriminate].
  intros H; injection H as <-.
  apply andb_prop in Hb as [Hn Hb]. apply String.eqb_eq in Hb. subst r2.
  destruct (take_seg_no_slash _ _ _ Ht) as [-> Hs].
  cbn. repeat split; [|exact Hs].
  destruct s2; [discriminate|congruence].
Qed.

Lemma match_at_shape t m : match_at t = Some m -> match_shape t m.
Proof.
  destruct t as [|a r]; [discriminate|]. unfold match_at.
  destruct (Ascii.eqb a slash) eqn:Ha; [|discriminate].
  apply Ascii.eqb_eq in Ha. subst a.
  destruct (take_seg r) as [s1 r1] eqn:Ht1.
  destruct (is_empty s1) eqn:He1; [apply match_no_locale_shape|].
  destruct r1 as [|b r2]; [apply match_no_locale_shape|].
  destruct (Ascii.eqb b slash) eqn:Hb; [|apply match_no_locale_shape].
  destruct (take_seg r2) as [s2 r3] eqn:Ht2.
  destruct (negb (is_empty s2) && String.eqb r3 "/fonts.css") eqn:Hm;
    [|apply match_no_locale_shape].
  intros H; injection H as <-.
  apply Ascii.eqb_eq in Hb. subst b.
  apply andb_prop in Hm as [Hn Hm]. apply String.eqb_eq in Hm. subst r3.
  destruct (take_seg_no_slash _ _ _ Ht1) as [-> H1].
  destruct (take_seg_no_slash _ _ _ Ht2) as [-> H2].
  cbn. repeat split; try assumption.
  - destruct s2; [discriminate|congruence].
  - destruct s1; [discriminate|congruence].
Qed.

(** X10: whenever the URL pattern matches, the fonts segment and the
    locale segment (when present) are non-empty and slash-free, and the
    URL is some prefix followed by [/<locale>/<fonts>/fonts.css] or
    [/<fonts>/fonts.css]. *)
Theorem regex_exec_shape (u : string) m1 m2 :
  regex_exec u = Some (m1, m2) ->
  exists pre suf, u = pre ++ suf /\ match_shape suf (m1, m2).
Proof.
  induction u as [|c r IH]; intros H.
  - discriminate.
  - change (match match_at (String c r) with
            | Some m => Some m
            | None => regex_exec r
            end = Some (m1, m2)) in H.
    destruct (match_at (String c r)) as [m|] eqn:Hm.
    + injection H as ->. exists "", (String c r).
      split; [reflexivity|]. apply match_at_shape. exact Hm.
    + destruct (IH H) as [pre [suf [-> Hs]]].
      exists (String c pre), suf. split; [reflexivity|exact Hs].
Qed.

(** X11: the sanitised cache key contains neither a slash nor a dot and
    has the key's length, so the CSS file [<key>.css] always lies
    directly inside the temporary directory, whatever the user agent in
    the request. *)
Theorem css_file_name_safe (key : string) :
  has_char slash (css_file_name key) = false
  /\ has_char "." (replace_non_word key) = false
  /\ String.length (replace_non_word key) = String.length key.
Proof.
  assert (Hr : forall k, has_char slash (replace_non_word k) = false
                      /\ has_char "." (replace_non_word k) = false
                      /\ String.length (replace_non_word k) = String.length k).
  { induction k as [|a k [IH1 [IH2 IH3]]]; [repeat split|].
    cbn [replace_non_word has_char String.length].
    destruct (is_word_char a) eqn:Hw.
    - destruct (Ascii.eqb a slash) eqn:E1;
        [apply Ascii.eqb_eq in E1; subst a; discriminate|].
      destruct (Ascii.eqb a ".") eqn:E2;
        [apply Ascii.eqb_eq in E2; subst a; discriminate|].
      repeat split; auto.
    - repeat split; auto. }
  destruct (Hr key) as [H1 [H2 H3]].
  unfold css_file_name. rewrite has_char_app, H1.
  repeat split; assumption.
Qed.

(** * Further properties of the responder *)

Section ResponderMore.

Variable gen : string -> string -> list string -> js_error + string.
Variable td : js_error + string.
Variable wr : string -> string -> option js_error.

Lemma getCacheKey_split u l m2 :
  getCacheKey u l (split_comma m2) = u ++ "-" ++ l ++ "-" ++ m2.
Proof.
  unfold getCacheKey.
  destruct (split_comma_spec m2) as [_ [_ [_ ->]]]. reflexivity.
Qed.

(** X12: a matched GET request whose cache key
    [<ua>-<locale>-<fonts segment of the URL>] is already cached is served
    from the cached file, without calling the generator or changing any
    state. *)
Theorem font_css_responder_cache_hit cfg (w : world) req m1 m2 u o :
  method req = "GET" -> regex_exec (url req) = Some (m1, m2) ->
  resolve_ua cfg req = Some u -> u <> "" ->
  cssCache w !! (u ++ "-" ++ locale_of m1 ++ "-" ++ m2) = Some o ->
  font_css_responder gen td wr cfg w req
  = ([PipeFile (cssPath o) (compress cfg)], w).
Proof.
  intros Hg Hm Hu Hne Hc.
  rewrite (responder_matched gen td wr cfg w req m1 m2 u Hg Hm Hu Hne).
  rewrite (get_css_hit gen td wr w u (locale_of m1) (split_comma m2) o);
    [reflexivity|].
  rewrite getCacheKey_split. exact Hc.
Qed.

(** X13: if the CSS is generated but no temporary directory can be
    created, the responder throws a [TypeError] (the [tmp.dir] error is
    lost) and the request is not cached. *)
Theorem font_css_responder_tmp_dir_failure cfg (w : world) req m1 m2 u
    cssStr e :
  method req = "GET" -> regex_exec (url req) = Some (m1, m2) ->
  resolve_ua cfg req = Some u -> u <> "" ->
  cssCache w !! getCacheKey u (locale_of m1) (split_comma m2) = None ->
  gen u (locale_of m1) (split_comma m2) = inr cssStr ->
  truthy (cssTmpPath w) = false -> td = inl e ->
  font_css_responder gen td wr cfg w req
  = ([Throw TypeError],
     log_gen_call (u, locale_of m1, split_comma m2) w)
  /\ cssCache (log_gen_call (u, locale_of m1, split_comma m2) w)
     = cssCache w.
Proof.
  intros Hg Hm Hu Hne Hc Hgen Ht He. split; [|reflexivity].
  rewrite (responder_matched gen td wr cfg w req m1 m2 u Hg Hm Hu Hne).
  rewrite (get_css_tmp_dir_failure gen td wr w _ _ _ cssStr e Hc Hgen Ht He).
  reflexivity.
Qed.

End ResponderMore.

(** * Evaluations of the further properties *)

Lemma setup_then_get_css_regenerates_witness :
  gen_calls (snd (get_css demo_gen demo_tmp_dir demo_write_ok
                    (ms_world (snd (setup demo_options
                                      (mk_module_state None cached_world None))))
                    demo_ua "en" ["Arial"]))
  = (gen_calls cached_world ++ [(demo_ua, "en", ["Arial"])])%list.
Proof.
  apply (setup_then_get_css_regenerates demo_gen demo_tmp_dir demo_write_ok
           demo_options (mk_module_state None cached_world None)).
  reflexivity.
Defined.

Lemma setup_default_no_cache_headers_witness :
  setCacheControlHeaders 0 "Thu, 01 Jan 1970 00:00:00 GMT"
    (<["date" := "x"]> ∅) = <["date" := "x"]> ∅.
Proof.
  apply (setup_default_no_cache_headers demo_options initial_state
           (snd (setup demo_options initial_state)) (mk_config None 0 false));
    reflexivity.
Defined.

Lemma get_css_cache_monotone_witness :
  cssCache (snd (get_css demo_gen demo_tmp_dir demo_write_ok cached_world
                   "Other" "en" ["Arial"]))
    !! getCacheKey demo_ua "en" ["Arial"]
  = cssCache cached_world !! getCacheKey demo_ua "en" ["Arial"].
Proof.
  apply (proj2 (get_css_cache_monotone demo_gen demo_tmp_dir demo_write_ok
                  cached_world "Other" "en" ["Arial"])).
  vm_compute. discriminate.
Defined.

Lemma get_css_keeps_tmp_dir_witness :
  get_css demo_gen demo_tmp_dir_fail demo_write_ok world_with_tmp
    demo_ua "en" ["Arial"]
  = get_css demo_gen demo_tmp_dir demo_write_ok world_with_tmp
      demo_ua "en" ["Arial"]
  /\ cssTmpPath (snd (get_css demo_gen demo_tmp_dir_fail demo_write_ok
                        world_with_tmp demo_ua "en" ["Arial"]))
     = Some "/tmp/tmp-1234".
Proof.
  apply (get_css_keeps_tmp_dir demo_gen demo_tmp_dir_fail demo_write_ok
           world_with_tmp demo_ua "en" ["Arial"] demo_tmp_dir). reflexivity.
Defined.

Lemma get_css_tmp_dir_failure_witness :
  get_css demo_gen demo_tmp_dir_fail demo_write_ok empty_world
    demo_ua "en" ["Arial"]
  = (GcRaise TypeError, log_gen_call (demo_ua, "en", ["Arial"]) empty_world).
Proof.
  apply (get_css_tmp_dir_failure demo_gen demo_tmp_dir_fail demo_write_ok
           empty_world demo_ua "en" ["Arial"] "/* Mozilla/5.0 (X11; Linux x86_64) en */"
           IOError); reflexivity.
Defined.

Lemma regex_exec_shape_witness :
  exists pre suf, "/extra/en/Arial/fonts.css" = pre ++ suf
                  /\ match_shape suf (Some "en", "Arial").
Proof.
  apply (regex_exec_shape "/extra/en/Arial/fonts.css"). reflexivity.
Defined.

Lemma font_css_responder_cache_hit_witness :
  exists o,
    font_css_responder demo_gen demo_tmp_dir demo_write_ok demo_config
      cached_world (get_request "/en/Arial/fonts.css" (Some demo_ua))
    = ([PipeFile (cssPath o) false], cached_world).
Proof.
  eexists.
  apply (font_css_responder_cache_hit demo_gen demo_tmp_dir demo_write_ok
           demo_config cached_world
           (get_request "/en/Arial/fonts.css" (Some demo_ua))
           (Some "en") "Arial" demo_ua);
    [reflexivity|reflexivity|reflexivity|discriminate|].
  vm_compute. reflexivity.
Defined.

Lemma font_css_responder_tmp_dir_failure_witness :
  font_css_responder demo_gen demo_tmp_dir_fail demo_write_ok demo_config
    empty_world (get_request "/en/Arial/fonts.css" (Some demo_ua))
  = ([Throw TypeError], log_gen_call (demo_ua, "en", ["Arial"]) empty_world).
Proof.
  apply (font_css_responder_tmp_dir_failure demo_gen demo_tmp_dir_fail
           demo_write_ok demo_config empty_world
           (get_request "/en/Arial/fonts.css" (Some demo_ua))
           (Some "en") "Arial" demo_ua
           "/* Mozilla/5.0 (X11; Linux x86_64) en */" IOError);
    try reflexivity. discriminate.
Defined.
